(** * NTIA conformance checker: field predicates and compliance standards

    A shallow embedding of [ntia_conformance_checker/util.py] (the field
    predicates run against every package of a parsed SPDX document) and
    of the compliance standards built on top of them (NTIA Minimum
    Elements, FSCT v3 Minimum Expected, and the [SbomChecker] factory).

    Python objects are dynamically typed, so package attributes are
    modelled by a small universe of Python values; a call that may raise
    returns a [result]. *)

From Stdlib Require Import List String Bool Arith Lia Permutation.
Import ListNotations.
Open Scope string_scope.
Open Scope list_scope.

(** ** Python values, truthiness and exceptions *)

Module Py.

(** The exceptions the modelled code can raise. *)
Inductive exn : Type :=
| AttributeError (msg : string)
| ValueError (msg : string).

Inductive result (A : Type) : Type :=
| Ok (a : A)
| Raise (e : exn).
Arguments Ok {A} a.
Arguments Raise {A} e.

Definition bind {A B : Type} (r : result A) (k : A -> result B) : result B :=
  match r with
  | Ok a => k a
  | Raise e => Raise e
  end.

(** [spdx_tools.spdx.model.Actor]: a dataclass, hence always truthy. *)
Record Actor : Type := mkActor {
  actor_type : string;
  actor_name : string;
  actor_email : option string
}.

(** The values a package attribute (or an entry of a result list) can hold. *)
Inductive value : Type :=
| VNone
| VStr (s : string)
| VNoAssertion                (* an instance of [SpdxNoAssertion] *)
| VActor (a : Actor)
| VTuple (a b : value).       (* a 2-tuple [(a, b)] *)

(** Python truth value testing: [None] and the empty string are falsy;
    [SpdxNoAssertion] defines neither [__bool__] nor [__len__], so its
    instances are truthy, like dataclass instances and non-empty tuples. *)
Definition truthy (v : value) : bool :=
  match v with
  | VNone => false
  | VStr s => negb (String.eqb s "")
  | VNoAssertion => true
  | VActor _ => true
  | VTuple _ _ => true
  end.

(** [v is None] *)
Definition is_None (v : value) : bool :=
  match v with
  | VNone => true
  | _ => false
  end.

(** [isinstance(v, SpdxNoAssertion)] *)
Definition isinstance_SpdxNoAssertion (v : value) : bool :=
  match v with
  | VNoAssertion => true
  | _ => false
  end.

(** [t[0]] on a 2-tuple; [None] for a value that is not a tuple. *)
Definition tuple_fst (v : value) : option value :=
  match v with
  | VTuple a _ => Some a
  | _ => None
  end.

(** [l.append(x)] on a list held in a local variable. *)
Definition append {A : Type} (l : list A) (x : A) : list A := l ++ [x].

(** [for x in xs: s = body x s], the loop state threaded left to right. *)
Definition for_each {A S : Type} (xs : list A) (body : A -> S -> S) (s : S) : S :=
  fold_left (fun acc x => body x acc) xs s.

End Py.
Import Py.

Notation "x <- r ;; k" := (bind r (fun x => k))
  (at level 61, r at next level, right associativity).

(** ** The parsed document *)

Record Package : Type := mkPackage {
  name : value;
  spdx_id : value;
  version : value;
  supplier : value;
  license_concluded : value;
  copyright_text : value
}.

Record Relationship : Type := mkRelationship {
  spdx_element_id : string;
  relationship_type : string;
  related_spdx_element_id : string
}.

Record CreationInfo : Type := mkCreationInfo {
  creators : list Actor;
  created : value
}.

Record Document : Type := mkDocument {
  creation_info : CreationInfo;
  packages : list Package;
  relationships : list Relationship
}.

(** [doc.packages]: attribute access on [None] raises [AttributeError]. *)
Definition doc_packages (doc : option Document) : result (list Package) :=
  match doc with
  | Some d => Ok (packages d)
  | None => Raise (AttributeError "'NoneType' object has no attribute 'packages'")
  end.

(** ** util.py *)

Module Util.

(** [get_components_without_names(doc)]: SPDX ID of components without names. *)
Definition get_components_without_names (doc : option Document) : result (list value) :=
  pkgs <- doc_packages doc ;;
  Ok (for_each pkgs
        (fun package components_without_names =>
           if negb (truthy (name package))
           then append components_without_names (spdx_id package)
           else components_without_names)
        []).

(** [get_components_without_versions(doc, return_tuples=False)] *)
Definition get_components_without_versions
    (doc : option Document) (return_tuples : bool) : result (list value) :=
  pkgs <- doc_packages doc ;;
  Ok (for_each pkgs
        (fun package components_without_versions =>
           if negb (truthy (version package))
           then
             if return_tuples
             then append components_without_versions
                    (VTuple (name package) (spdx_id package))
             else append components_without_versions (name package)
           else components_without_versions)
        []).

(** [get_components_without_suppliers(doc, return_tuples=False)] *)
Definition get_components_without_suppliers
    (doc : option Document) (return_tuples : bool) : result (list value) :=
  pkgs <- doc_packages doc ;;
  Ok (for_each pkgs
        (fun package components_without_suppliers =>
           let no_supplier :=
             is_None (supplier package)
             || isinstance_SpdxNoAssertion (supplier package) in
           if no_supplier
           then
             if return_tuples
             then append components_without_suppliers
                    (VTuple (name package) (spdx_id package))
             else append components_without_suppliers (name package)
           else components_without_suppliers)
        []).

(** [get_components_without_identifiers(doc)]: a list comprehension. *)
Definition get_components_without_identifiers (doc : option Document) : result (list value) :=
  pkgs <- doc_packages doc ;;
  Ok (map name (filter (fun package => negb (truthy (spdx_id package))) pkgs)).

End Util.

(** ** Compliance standards

    The checker classes ([base_checker.py], [ntia_checker.py],
    [fsct_checker.py], [sbom_checker.py]) are known here through the test
    suite only; the definitions of this part follow the specification,
    and the test suite for the attribute names and the error messages. *)

(** Modelled from the spec: the two standard variants (classes
    [NTIAChecker] and [FSCT3Checker], missing). *)
Inductive Standard : Type := NTIA | FSCT3.

(** Modelled from the spec: the elements a standard checks (their list is
    in the missing checker classes), six package fields and three
    document-level checks. *)
Inductive Element : Type :=
| El_name
| El_version
| El_identifier
| El_supplier
| El_author
| El_timestamp
| El_dependency_relationships
| El_concluded_license
| El_copyright_text.

(** Modelled from the spec: the attributes of a checker instance (class
    [BaseChecker], missing from the sources), as the tests set them. *)
Record Checker : Type := mkChecker {
  doc : option Document;
  doc_author : bool;
  doc_timestamp : bool;
  dependency_relationships : bool;
  components_without_names : list value;
  components_without_versions : list value;
  components_without_identifiers : list value;
  components_without_suppliers : list value;
  components_without_concluded_licenses : list value;
  components_without_copyright_texts : list value
}.

(** Modelled from the spec: [BaseChecker.check_author] (missing), true iff
    creator metadata is present, false on a [None] document. *)
Definition check_author (doc : option Document) : bool :=
  match doc with
  | None => false
  | Some d => negb (Nat.eqb (List.length (creators (creation_info d))) 0)
  end.

(** Modelled from the spec: [BaseChecker.check_timestamp] (missing), true iff
    a creation timestamp is present, false on a [None] document. *)
Definition check_timestamp (doc : option Document) : bool :=
  match doc with
  | None => false
  | Some d => truthy (created (creation_info d))
  end.

(** Modelled from the spec: [BaseChecker.check_dependency_relationships]
    (missing), true iff at least one relationship is declared, false on a
    [None] document. *)
Definition check_dependency_relationships (doc : option Document) : bool :=
  match doc with
  | None => false
  | Some d => negb (Nat.eqb (List.length (relationships d)) 0)
  end.

(** Modelled from the spec: the accessors of [BaseChecker] (missing) branch
    on an absent document and otherwise delegate to the field predicate. *)
Definition none_safe (predicate : option Document -> result (list value))
    (doc : option Document) : result (list value) :=
  match doc with
  | None => Ok []
  | Some _ => predicate doc
  end.

(** Modelled from the spec: the field predicates for concluded license and
    copyright text (missing); absence and the no-assertion marker both
    count as missing. *)
Definition absent_or_no_assertion (v : value) : bool :=
  is_None v || isinstance_SpdxNoAssertion v.

(** Modelled from the spec: [get_components_without_concluded_licenses]
    (missing), the names of the packages without a concluded license. *)
Definition get_components_without_concluded_licenses
    (doc : option Document) : result (list value) :=
  pkgs <- doc_packages doc ;;
  Ok (map name (filter (fun package => absent_or_no_assertion (license_concluded package)) pkgs)).

(** Modelled from the spec: [get_components_without_copyright_texts]
    (missing), the names of the packages without a copyright text. *)
Definition get_components_without_copyright_texts
    (doc : option Document) : result (list value) :=
  pkgs <- doc_packages doc ;;
  Ok (map name (filter (fun package => absent_or_no_assertion (copyright_text package)) pkgs)).

(** Modelled from the spec: the eager computation of every check at
    construction ([BaseChecker.__init__], missing), once the document is
    parsed (or parsing failed and [doc] is [None]). *)
Definition compute_checks (doc : option Document) : result Checker :=
  names <- none_safe Util.get_components_without_names doc ;;
  versions <- none_safe (fun d => Util.get_components_without_versions d false) doc ;;
  identifiers <- none_safe Util.get_components_without_identifiers doc ;;
  suppliers <- none_safe (fun d => Util.get_components_without_suppliers d false) doc ;;
  licenses <- none_safe get_components_without_concluded_licenses doc ;;
  copyrights <- none_safe get_components_without_copyright_texts doc ;;
  Ok {| doc := doc;
        doc_author := check_author doc;
        doc_timestamp := check_timestamp doc;
        dependency_relationships := check_dependency_relationships doc;
        components_without_names := names;
        components_without_versions := versions;
        components_without_identifiers := identifiers;
        components_without_suppliers := suppliers;
        components_without_concluded_licenses := licenses;
        components_without_copyright_texts := copyrights |}.

(** [not l] for a list: true iff the list is empty. *)
Definition is_empty (l : list value) : bool :=
  match l with
  | [] => true
  | _ :: _ => false
  end.

(** Modelled from the spec: [NTIAChecker.check_compliance] (missing): all
    four field lists empty and all three document checks true. *)
Definition NTIAChecker_check_compliance (c : Checker) : bool :=
  is_empty (components_without_names c)
  && is_empty (components_without_versions c)
  && is_empty (components_without_identifiers c)
  && is_empty (components_without_suppliers c)
  && doc_author c && doc_timestamp c && dependency_relationships c.

(** Modelled from the spec: [FSCT3Checker.check_compliance] (missing): all
    six field lists empty and all three document checks true. *)
Definition FSCT3Checker_check_compliance (c : Checker) : bool :=
  is_empty (components_without_names c)
  && is_empty (components_without_versions c)
  && is_empty (components_without_identifiers c)
  && is_empty (components_without_suppliers c)
  && is_empty (components_without_concluded_licenses c)
  && is_empty (components_without_copyright_texts c)
  && doc_author c && doc_timestamp c && dependency_relationships c.

(** Modelled from the spec: [check_compliance] is overridden by each
    standard (classes missing); the class of the instance selects the
    override. *)
Definition check_compliance (std : Standard) (c : Checker) : bool :=
  match std with
  | NTIA => NTIAChecker_check_compliance c
  | FSCT3 => FSCT3Checker_check_compliance c
  end.

(** Modelled from the spec: the package fields each standard is configured
    with, in the order of [print_components_missing_info]'s attributes. *)
Definition configured_fields (std : Standard) : list Element :=
  match std with
  | NTIA => [El_name; El_version; El_identifier; El_supplier]
  | FSCT3 => [El_name; El_version; El_identifier; El_supplier;
              El_concluded_license; El_copyright_text]
  end.

(** Modelled from the spec: the missing-component list a checker holds
    for a package field (attributes of the missing [BaseChecker]); the
    document-level elements have no list. *)
Definition missing_list (c : Checker) (e : Element) : list value :=
  match e with
  | El_name => components_without_names c
  | El_version => components_without_versions c
  | El_identifier => components_without_identifiers c
  | El_supplier => components_without_suppliers c
  | El_concluded_license => components_without_concluded_licenses c
  | El_copyright_text => components_without_copyright_texts c
  | El_author | El_timestamp | El_dependency_relationships => []
  end.

(** Modelled from the spec: what a checker hands to a renderer (the
    keyword arguments of the missing [BaseChecker.print_table_output]). *)
Record RenderCall : Type := mkRenderCall {
  rc_verbose : bool;
  rc_table_elements : list Element;
  rc_checker : Checker
}.

(** Modelled from the spec: [NTIAChecker.print_table_output] (missing)
    forwards to the base renderer with the NTIA table elements. *)
Definition NTIAChecker_print_table_output (c : Checker) (verbose : bool) : RenderCall :=
  {| rc_verbose := verbose;
     rc_table_elements :=
       [El_name; El_version; El_identifier; El_supplier;
        El_author; El_timestamp; El_dependency_relationships];
     rc_checker := c |}.

(** Modelled from the spec: [FSCT3Checker.print_table_output] (missing)
    forwards to the base renderer with the FSCT table elements. *)
Definition FSCT3Checker_print_table_output (c : Checker) (verbose : bool) : RenderCall :=
  {| rc_verbose := verbose;
     rc_table_elements :=
       [El_name; El_version; El_identifier; El_supplier;
        El_author; El_timestamp; El_dependency_relationships;
        El_concluded_license; El_copyright_text];
     rc_checker := c |}.

(** [x in xs] for strings. *)
Definition str_in (x : string) (xs : list string) : bool :=
  existsb (String.eqb x) xs.

(** Modelled from the spec: the recognized SBOM specifications (the
    constant is in the missing checker modules). *)
Definition SUPPORTED_SBOM_SPECS : list string := ["spdx2"; "spdx3"].

(** Modelled from the spec: the configuration errors of the missing
    checker modules, named by the part of their message the tests match. *)
Definition msg_unsupported_sbom_spec : string := "Unsupported SBOM specification".
Definition msg_unknown_compliance : string := "Unknown compliance standard".
Definition msg_only_ntia : string := "Only NTIA Minimum Element compliance".
Definition msg_only_fsct3 : string := "Only FSCTv3 Minimum Expected compliance".

Section Construction.

(** The external parser: a document, or [None] when parsing failed. *)
Variable parse_file : string -> string -> option Document.

(** Modelled from the spec: [BaseChecker.__init__] (missing) rejects an
    unsupported SBOM specification, parses the file and computes every
    check eagerly. *)
Definition BaseChecker_init (file : string) (validate : bool)
    (compliance sbom_spec : string) : result Checker :=
  if str_in sbom_spec SUPPORTED_SBOM_SPECS
  then compute_checks (parse_file file sbom_spec)
  else Raise (ValueError msg_unsupported_sbom_spec).

(** Modelled from the spec: [NTIAChecker.__init__] (missing) validates
    its [compliance] parameter against its one allowed value. *)
Definition NTIAChecker_init (file : string) (validate : bool)
    (compliance sbom_spec : string) : result Checker :=
  c <- BaseChecker_init file validate compliance sbom_spec ;;
  if String.eqb compliance "ntia"
  then Ok c
  else Raise (ValueError msg_only_ntia).

(** Modelled from the spec: [FSCT3Checker.__init__] (missing), likewise. *)
Definition FSCT3Checker_init (file : string) (validate : bool)
    (compliance sbom_spec : string) : result Checker :=
  c <- BaseChecker_init file validate compliance sbom_spec ;;
  if String.eqb compliance "fsct3-min"
  then Ok c
  else Raise (ValueError msg_only_fsct3).

(** Modelled from the spec: the factory [SbomChecker(file, validate,
    compliance, sbom_spec)] (missing): the SBOM specification is checked
    before the dispatch on the compliance name; the instance returned is
    tagged with its class. *)
Definition SbomChecker (file : string) (validate : bool)
    (compliance sbom_spec : string) : result (Standard * Checker) :=
  if negb (str_in sbom_spec SUPPORTED_SBOM_SPECS)
  then Raise (ValueError msg_unsupported_sbom_spec)
  else if String.eqb compliance "ntia"
  then c <- NTIAChecker_init file validate "ntia" sbom_spec ;; Ok (NTIA, c)
  else if String.eqb compliance "fsct3-min"
  then c <- FSCT3Checker_init file validate "fsct3-min" sbom_spec ;; Ok (FSCT3, c)
  else Raise (ValueError msg_unknown_compliance).

End Construction.

(** ** Vocabulary of the statements *)

(** The entry a package contributes to a result list: its name, or the
    pair of its name and SPDX ID when [return_tuples] is set. *)
Definition entry (return_tuples : bool) (p : Package) : value :=
  if return_tuples then VTuple (name p) (spdx_id p) else name p.

Definition lacks_name (p : Package) : bool := negb (truthy (name p)).
Definition lacks_version (p : Package) : bool := negb (truthy (version p)).
Definition lacks_identifier (p : Package) : bool := negb (truthy (spdx_id p)).

(** The supplier is absent ([None]) or the no-assertion sentinel. *)
Definition spec_lacks_supplier (p : Package) : bool :=
  match supplier p with
  | VNone | VNoAssertion => true
  | _ => false
  end.

(** A document that differs from [d] in its packages only. *)
Definition with_packages (d : Document) (pkgs : list Package) : Document :=
  {| creation_info := creation_info d;
     packages := pkgs;
     relationships := relationships d |}.

(** A small document used in the examples: one creator, a timestamp, one
    relationship and the given packages. *)
Definition sample_document (pkgs : list Package) : Document :=
  {| creation_info :=
       {| creators := [mkActor "Person" "Jane Doe" None];
          created := VStr "2010-01-29T18:30:22Z" |};
     packages := pkgs;
     relationships := [mkRelationship "SPDXRef-DOCUMENT" "DESCRIBES" "SPDXRef-Package"] |}.

Definition complete_package : Package :=
  {| name := VStr "glibc";
     spdx_id := VStr "SPDXRef-Package";
     version := VStr "2.11.1";
     supplier := VActor (mkActor "Person" "Jane Doe" (Some "jane.doe@example.com"));
     license_concluded := VStr "LGPL-2.0-only";
     copyright_text := VStr "Copyright 2008-2010 John Smith" |}.

Definition nameless_package : Package :=
  {| name := VStr "";
     spdx_id := VStr "SPDXRef-Package";
     version := VStr "2.11.1";
     supplier := VActor (mkActor "Person" "Jane Doe" None);
     license_concluded := VStr "LGPL-2.0-only";
     copyright_text := VStr "Copyright 2008-2010 John Smith" |}.

(** Every attribute an empty string: falsy, yet neither [None] nor the
    sentinel. *)
Definition blank_package : Package :=
  {| name := VStr "saxon";
     spdx_id := VStr "SPDXRef-Saxon";
     version := VStr "";
     supplier := VStr "";
     license_concluded := VStr "";
     copyright_text := VStr "" |}.

Definition unlicensed_package : Package :=
  {| name := VStr "glibc";
     spdx_id := VStr "SPDXRef-Package";
     version := VStr "2.11.1";
     supplier := VActor (mkActor "Person" "Jane Doe" None);
     license_concluded := VNone;
     copyright_text := VStr "Copyright 2008-2010 John Smith" |}.

(** The checker state of the all-compliant tests: every list empty, every
    document check true. *)
Definition all_compliant_checker : Checker :=
  {| doc := Some (sample_document [complete_package]);
     doc_author := true;
     doc_timestamp := true;
     dependency_relationships := true;
     components_without_names := [];
     components_without_versions := [];
     components_without_identifiers := [];
     components_without_suppliers := [];
     components_without_concluded_licenses := [];
     components_without_copyright_texts := [] |}.

(** A parser for which every file fails to parse. *)
Definition failing_parser (file sbom_spec : string) : option Document := None.

(** ** The loops of util.py as filters *)

Section Loops.

Context {A B : Type}.
Variable selected : A -> bool.
Variable item : A -> B.
Variable body : A -> list B -> list B.
Hypothesis body_spec :
  forall x acc, body x acc = if selected x then append acc (item x) else acc.

Lemma for_each_from (xs : list A) (acc : list B) :
  for_each xs body acc = acc ++ map item (filter selected xs).
Proof.
  unfold for_each. revert acc.
  induction xs as [| x xs IH]; intros acc; simpl.
  - now rewrite app_nil_r.
  - rewrite IH, body_spec. destruct (selected x); simpl.
    + unfold append. now rewrite <- app_assoc.
    + reflexivity.
Qed.

Lemma for_each_filter (xs : list A) :
  for_each xs body [] = map item (filter selected xs).
Proof. apply for_each_from. Qed.

End Loops.

Lemma spec_lacks_supplier_code (p : Package) :
  is_None (supplier p) || isinstance_SpdxNoAssertion (supplier p) = spec_lacks_supplier p.
Proof. unfold spec_lacks_supplier. now destruct (supplier p). Qed.

Lemma names_filter (d : Document) :
  Util.get_components_without_names (Some d)
  = Ok (map spdx_id (filter lacks_name (packages d))).
Proof.
  unfold Util.get_components_without_names; simpl. f_equal.
  apply for_each_filter. reflexivity.
Qed.

Lemma versions_filter (d : Document) (rt : bool) :
  Util.get_components_without_versions (Some d) rt
  = Ok (map (entry rt) (filter lacks_version (packages d))).
Proof.
  unfold Util.get_components_without_versions; simpl. f_equal.
  apply for_each_filter. intros x acc. unfold lacks_version, entry.
  now destruct (negb (truthy (version x))), rt.
Qed.

Lemma suppliers_filter (d : Document) (rt : bool) :
  Util.get_components_without_suppliers (Some d) rt
  = Ok (map (entry rt) (filter spec_lacks_supplier (packages d))).
Proof.
  unfold Util.get_components_without_suppliers; simpl. f_equal.
  apply for_each_filter. intros x acc. cbv zeta.
  rewrite spec_lacks_supplier_code. unfold entry.
  now destruct (spec_lacks_supplier x), rt.
Qed.

Lemma identifiers_filter (d : Document) :
  Util.get_components_without_identifiers (Some d)
  = Ok (map name (filter lacks_identifier (packages d))).
Proof. reflexivity. Qed.

Lemma spec_lacks_supplier_iff (p : Package) :
  spec_lacks_supplier p = true <-> supplier p = VNone \/ supplier p = VNoAssertion.
Proof.
  unfold spec_lacks_supplier.
  destruct (supplier p); split; intros H; auto; try discriminate;
    destruct H; discriminate.
Qed.

Lemma Forall_map_filter {A B : Type} (sel : A -> bool) (f : A -> B) (xs : list A) :
  Forall (fun e => exists x, In x xs /\ sel x = true /\ e = f x) (map f (filter sel xs)).
Proof.
  apply Forall_forall. intros e He.
  apply in_map_iff in He. destruct He as [x [Hx Hin]].
  apply filter_In in Hin. destruct Hin as [Hin Hsel].
  exists x. auto.
Qed.

Lemma filter_repeat_selected {A : Type} (sel : A -> bool) (x : A) (n : nat) :
  sel x = true -> filter sel (repeat x n) = repeat x n.
Proof.
  intros Hx. induction n as [| n IH]; simpl.
  - reflexivity.
  - now rewrite Hx, IH.
Qed.

Lemma filter_skip {A : Type} (sel : A -> bool) (l1 l2 : list A) (x : A) :
  sel x = false -> filter sel (l1 ++ x :: l2) = filter sel (l1 ++ l2).
Proof.
  intros Hx. rewrite !filter_app. simpl. now rewrite Hx.
Qed.

Lemma filter_keep {A : Type} (sel : A -> bool) (l1 l2 : list A) (x : A) :
  sel x = true -> filter sel (l1 ++ x :: l2) = filter sel l1 ++ x :: filter sel l2.
Proof.
  intros Hx. rewrite filter_app. simpl. now rewrite Hx.
Qed.

(** ** The field predicates of util.py *)

(** C2: a package contributes an entry to the list returned by
    [get_components_without_suppliers] if and only if its supplier is
    [None] or the [SpdxNoAssertion] sentinel; every other supplier value,
    in particular every string, counts as present. *)
Theorem suppliers_missing_iff_absent_or_no_assertion
    (d : Document) (return_tuples : bool) :
  exists missing : list Package,
    Util.get_components_without_suppliers (Some d) return_tuples
      = Ok (map (entry return_tuples) missing)
    /\ missing = filter spec_lacks_supplier (packages d)
    /\ (forall p, In p missing <->
                  In p (packages d)
                  /\ (supplier p = VNone \/ supplier p = VNoAssertion))
    /\ (forall p s, supplier p = VStr s -> ~ In p missing)
    /\ (forall p a, supplier p = VActor a -> ~ In p missing).
Proof.
  exists (filter spec_lacks_supplier (packages d)).
  split; [apply suppliers_filter |].
  split; [reflexivity |].
  assert (Hiff : forall p, In p (filter spec_lacks_supplier (packages d)) <->
                           In p (packages d)
                           /\ (supplier p = VNone \/ supplier p = VNoAssertion)).
  { intros p. rewrite filter_In, spec_lacks_supplier_iff. tauto. }
  split; [exact Hiff |].
  split; intros p x Hp Hin; apply Hiff in Hin;
    destruct Hin as [_ [H | H]]; congruence.
Qed.

(** C3, as written, fails on a [None] document: [doc.packages] raises
    [AttributeError] instead of an empty list being returned. *)
Lemma names_of_None_raises :
  Util.get_components_without_names None
    = Raise (AttributeError "'NoneType' object has no attribute 'packages'")
  /\ Util.get_components_without_names None <> Ok [].
Proof. split; [reflexivity | discriminate]. Qed.

(** C3 (amended): on a document every field predicate returns a list, for
    either value of its flag, and never raises, and the list depends on
    the packages of the document only; on [None] each of the four raises
    [AttributeError] at the access to [doc.packages]. *)
Theorem predicates_total_on_documents (d : Document) (return_tuples : bool) :
  (exists l, Util.get_components_without_names (Some d) = Ok l)
  /\ (exists l, Util.get_components_without_versions (Some d) return_tuples = Ok l)
  /\ (exists l, Util.get_components_without_suppliers (Some d) return_tuples = Ok l)
  /\ (exists l, Util.get_components_without_identifiers (Some d) = Ok l)
  /\ (exists m, Util.get_components_without_names None = Raise (AttributeError m))
  /\ (exists m, Util.get_components_without_versions None return_tuples
                = Raise (AttributeError m))
  /\ (exists m, Util.get_components_without_suppliers None return_tuples
                = Raise (AttributeError m))
  /\ (exists m, Util.get_components_without_identifiers None = Raise (AttributeError m))
  /\ (forall d', packages d' = packages d ->
        Util.get_components_without_names (Some d')
          = Util.get_components_without_names (Some d)
        /\ Util.get_components_without_versions (Some d') return_tuples
          = Util.get_components_without_versions (Some d) return_tuples
        /\ Util.get_components_without_suppliers (Some d') return_tuples
          = Util.get_components_without_suppliers (Some d) return_tuples
        /\ Util.get_components_without_identifiers (Some d')
          = Util.get_components_without_identifiers (Some d)).
Proof.
  split; [eexists; apply names_filter |].
  split; [eexists; apply versions_filter |].
  split; [eexists; apply suppliers_filter |].
  split; [eexists; apply identifiers_filter |].
  do 4 (split; [eexists; reflexivity |]).
  intros d' Hpackages.
  rewrite !names_filter, !versions_filter, !suppliers_filter, !identifiers_filter.
  now rewrite Hpackages.
Qed.

Lemma predicates_total_on_documents_witness :
  Util.get_components_without_versions
    (Some (mkDocument (mkCreationInfo [] VNone) [blank_package] [])) true
  = Ok [VTuple (VStr "saxon") (VStr "SPDXRef-Saxon")].
Proof.
  destruct (predicates_total_on_documents (sample_document [blank_package]) true)
    as (_ & _ & _ & _ & _ & _ & _ & _ & Hframe).
  destruct (Hframe (mkDocument (mkCreationInfo [] VNone) [blank_package] []) eq_refl)
    as (_ & Hversions & _).
  rewrite Hversions. reflexivity.
Defined.

(** C4, as written, fails: [get_components_without_names] reports SPDX
    IDs.  For a document whose only package has an empty name the result
    is the package's SPDX ID, which is the name of no nameless package. *)
Lemma names_result_holds_spdx_ids :
  Util.get_components_without_names (Some (sample_document [nameless_package]))
    = Ok [VStr "SPDXRef-Package"]
  /\ ~ (forall l e,
          Util.get_components_without_names (Some (sample_document [nameless_package])) = Ok l ->
          In e l ->
          exists p, In p (packages (sample_document [nameless_package]))
                    /\ lacks_name p = true /\ e = name p).
Proof.
  split; [reflexivity |].
  intros H.
  destruct (H [VStr "SPDXRef-Package"] (VStr "SPDXRef-Package") eq_refl (or_introl eq_refl))
    as [p [Hin [_ He]]].
  simpl in Hin. destruct Hin as [<- | []]. discriminate He.
Qed.

(** C4 (amended): [get_components_without_names] takes no flag and
    returns exactly the SPDX IDs (not the names) of the packages lacking a
    name; [get_components_without_identifiers] takes no flag and returns
    exactly the names of the packages lacking an SPDX ID;
    [get_components_without_versions] and [get_components_without_suppliers]
    return exactly the names of the packages lacking the field, or their
    (name, SPDX ID) pairs when [return_tuples] is set.  In every case the
    list has one entry per failing package, in document order, and hence
    every element of it comes from a failing package. *)
Theorem predicates_result_shape (d : Document) :
  (exists l, Util.get_components_without_names (Some d) = Ok l
     /\ l = map spdx_id (filter (fun p => negb (truthy (name p))) (packages d))
     /\ Forall (fun e => exists p, In p (packages d)
                  /\ truthy (name p) = false /\ e = spdx_id p) l)
  /\ (exists l, Util.get_components_without_identifiers (Some d) = Ok l
     /\ l = map name (filter (fun p => negb (truthy (spdx_id p))) (packages d))
     /\ Forall (fun e => exists p, In p (packages d)
                  /\ truthy (spdx_id p) = false /\ e = name p) l)
  /\ (exists l, Util.get_components_without_versions (Some d) false = Ok l
     /\ l = map name (filter (fun p => negb (truthy (version p))) (packages d))
     /\ Forall (fun e => exists p, In p (packages d)
                  /\ truthy (version p) = false /\ e = name p) l)
  /\ (exists l, Util.get_components_without_versions (Some d) true = Ok l
     /\ l = map (fun p => VTuple (name p) (spdx_id p))
             (filter (fun p => negb (truthy (version p))) (packages d))
     /\ Forall (fun e => exists p, In p (packages d)
                  /\ truthy (version p) = false
                  /\ e = VTuple (name p) (spdx_id p)) l)
  /\ (exists l, Util.get_components_without_suppliers (Some d) false = Ok l
     /\ l = map name (filter spec_lacks_supplier (packages d))
     /\ Forall (fun e => exists p, In p (packages d)
                  /\ (supplier p = VNone \/ supplier p = VNoAssertion)
                  /\ e = name p) l)
  /\ (exists l, Util.get_components_without_suppliers (Some d) true = Ok l
     /\ l = map (fun p => VTuple (name p) (spdx_id p))
             (filter spec_lacks_supplier (packages d))
     /\ Forall (fun e => exists p, In p (packages d)
                  /\ (supplier p = VNone \/ supplier p = VNoAssertion)
                  /\ e = VTuple (name p) (spdx_id p)) l)
  /\ (forall p, spec_lacks_supplier p = true
                <-> supplier p = VNone \/ supplier p = VNoAssertion).
Proof.
  assert (Hneg : forall b, negb b = true -> b = false)
    by (intros []; [discriminate | reflexivity]).
  do 6 (split;
    [ eexists;
      split;
      [ first [ apply names_filter | apply identifiers_filter
              | apply versions_filter | apply suppliers_filter ] |];
      split;
      [ reflexivity
      | eapply Forall_impl; [| apply Forall_map_filter];
        intros e [p [Hin [Hsel He]]]; exists p;
        repeat split; auto;
        try (apply spec_lacks_supplier_iff; exact Hsel) ] |]).
  exact spec_lacks_supplier_iff.
Qed.

Lemma predicates_result_shape_witness :
  spec_lacks_supplier
    (mkPackage (VStr "glibc") (VStr "SPDXRef-A") VNone VNoAssertion VNone VNone) = true
  /\ Util.get_components_without_versions
       (Some (sample_document [blank_package; complete_package; blank_package])) true
     = Ok [VTuple (VStr "saxon") (VStr "SPDXRef-Saxon");
           VTuple (VStr "saxon") (VStr "SPDXRef-Saxon")].
Proof.
  destruct (predicates_result_shape
              (sample_document [blank_package; complete_package; blank_package]))
    as (_ & _ & _ & (l & Hresult & Hl & _) & _ & _ & Hsupplier).
  split.
  - apply Hsupplier. right. reflexivity.
  - rewrite Hresult, Hl. reflexivity.
Defined.

(** C6: every field predicate walks the packages in document order and
    returns exactly the sub-sequence of the packages failing its check
    (one entry per failing package, in that order): nothing is sorted and
    nothing is deduplicated, so [n] copies of a failing package yield [n]
    equal entries. *)
Theorem predicates_preserve_document_order (d : Document) (return_tuples : bool) :
  Util.get_components_without_names (Some d)
    = Ok (map spdx_id (filter lacks_name (packages d)))
  /\ Util.get_components_without_versions (Some d) return_tuples
    = Ok (map (entry return_tuples) (filter lacks_version (packages d)))
  /\ Util.get_components_without_suppliers (Some d) return_tuples
    = Ok (map (entry return_tuples) (filter spec_lacks_supplier (packages d)))
  /\ Util.get_components_without_identifiers (Some d)
    = Ok (map name (filter lacks_identifier (packages d)))
  /\ (forall p n, lacks_name p = true ->
        Util.get_components_without_names (Some (with_packages d (repeat p n)))
          = Ok (repeat (spdx_id p) n))
  /\ (forall p n, lacks_version p = true ->
        Util.get_components_without_versions
          (Some (with_packages d (repeat p n))) return_tuples
          = Ok (repeat (entry return_tuples p) n))
  /\ (forall p n, spec_lacks_supplier p = true ->
        Util.get_components_without_suppliers
          (Some (with_packages d (repeat p n))) return_tuples
          = Ok (repeat (entry return_tuples p) n))
  /\ (forall p n, lacks_identifier p = true ->
        Util.get_components_without_identifiers (Some (with_packages d (repeat p n)))
          = Ok (repeat (name p) n)).
Proof.
  split; [apply names_filter |].
  split; [apply versions_filter |].
  split; [apply suppliers_filter |].
  split; [apply identifiers_filter |].
  repeat split; intros p n Hp.
  - rewrite names_filter; simpl.
    now rewrite filter_repeat_selected, map_repeat.
  - rewrite versions_filter; simpl.
    now rewrite filter_repeat_selected, map_repeat.
  - rewrite suppliers_filter; simpl.
    now rewrite filter_repeat_selected, map_repeat.
  - rewrite identifiers_filter; simpl.
    now rewrite filter_repeat_selected, map_repeat.
Qed.

Lemma predicates_preserve_document_order_witness :
  lacks_version blank_package = true
  /\ Util.get_components_without_versions
       (Some (with_packages (sample_document []) (repeat blank_package 2))) true
     = Ok [VTuple (VStr "saxon") (VStr "SPDXRef-Saxon");
           VTuple (VStr "saxon") (VStr "SPDXRef-Saxon")].
Proof.
  split; [reflexivity |].
  destruct (predicates_preserve_document_order (sample_document []) true)
    as (_ & _ & _ & _ & _ & Hversions & _).
  exact (Hversions blank_package 2 eq_refl).
Defined.

(** C9: the supplier check is by identity with [None] and by the type of
    the sentinel, not by falsiness: a package whose supplier is any other
    value, the empty string included, contributes nothing to the result of
    [get_components_without_suppliers] (the result is that of the document
    without the package), whereas a package whose version is the empty
    string contributes its entry to the result of
    [get_components_without_versions], at its place in document order. *)
Theorem supplier_by_identity_version_by_falsiness
    (d : Document) (before after : list Package) (p : Package) (return_tuples : bool) :
  (supplier p <> VNone -> supplier p <> VNoAssertion ->
     Util.get_components_without_suppliers
       (Some (with_packages d (before ++ p :: after))) return_tuples
     = Util.get_components_without_suppliers
         (Some (with_packages d (before ++ after))) return_tuples)
  /\ (version p = VStr "" ->
      exists r1 r2,
        Util.get_components_without_versions
          (Some (with_packages d before)) return_tuples = Ok r1
        /\ Util.get_components_without_versions
             (Some (with_packages d after)) return_tuples = Ok r2
        /\ Util.get_components_without_versions
             (Some (with_packages d (before ++ p :: after))) return_tuples
           = Ok (r1 ++ entry return_tuples p :: r2)).
Proof.
  split.
  - intros HNone HNoAssertion.
    rewrite !suppliers_filter; simpl.
    rewrite filter_skip; [reflexivity |].
    destruct (spec_lacks_supplier p) eqn:E; [| reflexivity].
    apply spec_lacks_supplier_iff in E. tauto.
  - intros Hversion.
    exists (map (entry return_tuples) (filter lacks_version before)),
           (map (entry return_tuples) (filter lacks_version after)).
    rewrite !versions_filter; simpl.
    repeat split.
    rewrite filter_keep by (unfold lacks_version; now rewrite Hversion).
    now rewrite map_app.
Qed.

Lemma supplier_by_identity_version_by_falsiness_witness :
  supplier blank_package = VStr ""
  /\ truthy (supplier blank_package) = false
  /\ Util.get_components_without_suppliers
       (Some (sample_document [unlicensed_package; blank_package])) false = Ok []
  /\ Util.get_components_without_versions
       (Some (sample_document [unlicensed_package; blank_package])) false
     = Ok [VStr "saxon"].
Proof.
  destruct (supplier_by_identity_version_by_falsiness
              (sample_document []) [unlicensed_package] [] blank_package false)
    as [Hsupplier Hversion].
  split; [reflexivity |].
  split; [reflexivity |].
  split.
  - change (sample_document [unlicensed_package; blank_package])
      with (with_packages (sample_document [])
              ([unlicensed_package] ++ blank_package :: [])).
    rewrite Hsupplier; [reflexivity | discriminate | discriminate].
  - destruct (Hversion eq_refl) as (r1 & r2 & H1 & H2 & H).
    change (sample_document [unlicensed_package; blank_package])
      with (with_packages (sample_document [])
              ([unlicensed_package] ++ blank_package :: [])).
    rewrite H.
    injection H1 as <-. injection H2 as <-. reflexivity.
Defined.

(** C10: the [return_tuples] flag of [get_components_without_versions] and
    [get_components_without_suppliers] changes the shape of the entries
    only: taking the first component of every pair of the result with the
    flag set gives the result with the flag cleared. *)
Theorem return_tuples_changes_shape_only (d : Document) :
  (exists tuples names,
     Util.get_components_without_versions (Some d) true = Ok tuples
     /\ Util.get_components_without_versions (Some d) false = Ok names
     /\ map tuple_fst tuples = map Some names)
  /\ (exists tuples names,
     Util.get_components_without_suppliers (Some d) true = Ok tuples
     /\ Util.get_components_without_suppliers (Some d) false = Ok names
     /\ map tuple_fst tuples = map Some names).
Proof.
  split; do 2 eexists;
    (split; [first [apply versions_filter | apply suppliers_filter] |]);
    (split; [first [apply versions_filter | apply suppliers_filter] |]);
    rewrite !map_map; reflexivity.
Qed.

(** ** The compliance standards *)

Lemma is_empty_iff (l : list value) : is_empty l = true <-> l = [].
Proof. destruct l; simpl; split; intros H; auto; discriminate. Qed.

Lemma compute_checks_None :
  compute_checks None
  = Ok (mkChecker None false false false [] [] [] [] [] []).
Proof. reflexivity. Qed.

Lemma ntia_verdict_iff (c : Checker) :
  NTIAChecker_check_compliance c = true <->
  (components_without_names c = [] /\ components_without_versions c = []
   /\ components_without_identifiers c = [] /\ components_without_suppliers c = [])
  /\ doc_author c = true /\ doc_timestamp c = true
  /\ dependency_relationships c = true.
Proof.
  unfold NTIAChecker_check_compliance.
  rewrite !andb_true_iff, !is_empty_iff. tauto.
Qed.

Lemma fsct3_verdict_iff (c : Checker) :
  FSCT3Checker_check_compliance c = true <->
  (components_without_names c = [] /\ components_without_versions c = []
   /\ components_without_identifiers c = [] /\ components_without_suppliers c = []
   /\ components_without_concluded_licenses c = []
   /\ components_without_copyright_texts c = [])
  /\ doc_author c = true /\ doc_timestamp c = true
  /\ dependency_relationships c = true.
Proof.
  unfold FSCT3Checker_check_compliance.
  rewrite !andb_true_iff, !is_empty_iff. tauto.
Qed.

(** C1: for either standard and every checker state, [check_compliance]
    is true if and only if every configured per-field missing list is
    empty and the three document-level booleans are true; the state
    computed from a [None] document exists and its verdict is false. *)
Theorem check_compliance_verdict (std : Standard) (c : Checker) :
  (check_compliance std c = true <->
     Forall (fun field => missing_list c field = []) (configured_fields std)
     /\ doc_author c = true /\ doc_timestamp c = true
     /\ dependency_relationships c = true)
  /\ (exists c0, compute_checks None = Ok c0
                 /\ doc c0 = None
                 /\ check_compliance std c0 = false).
Proof.
  split.
  - destruct std; simpl;
      [rewrite ntia_verdict_iff | rewrite fsct3_verdict_iff];
      rewrite !Forall_cons_iff; simpl;
      pose proof (Forall_nil (fun field => missing_list c field = [])); tauto.
  - eexists. split; [apply compute_checks_None |].
    split; [reflexivity | now destruct std].
Qed.

(** C5: FSCT3 compliance implies every NTIA requirement (the four shared
    field lists empty, the three document checks true), hence NTIA
    compliance; the converse fails: there is a document that is NTIA
    compliant and not FSCT3 compliant. *)
Theorem fsct3_stricter_than_ntia :
  (forall c, check_compliance FSCT3 c = true ->
     components_without_names c = [] /\ components_without_versions c = []
     /\ components_without_identifiers c = [] /\ components_without_suppliers c = []
     /\ doc_author c = true /\ doc_timestamp c = true
     /\ dependency_relationships c = true
     /\ check_compliance NTIA c = true)
  /\ (exists d c, compute_checks (Some d) = Ok c
                  /\ check_compliance NTIA c = true
                  /\ check_compliance FSCT3 c = false).
Proof.
  split.
  - intros c H. simpl in *.
    pose proof (proj2 (ntia_verdict_iff c)) as Hntia.
    apply fsct3_verdict_iff in H. tauto.
  - exists (sample_document [unlicensed_package]). eexists.
    split; [reflexivity |]. split; reflexivity.
Qed.

Lemma fsct3_stricter_than_ntia_witness :
  check_compliance FSCT3 all_compliant_checker = true
  /\ check_compliance NTIA all_compliant_checker = true.
Proof.
  split; [reflexivity |].
  apply (proj1 fsct3_stricter_than_ntia all_compliant_checker). reflexivity.
Defined.

Lemma str_in_supported (s : string) :
  str_in s SUPPORTED_SBOM_SPECS = false <-> s <> "spdx2" /\ s <> "spdx3".
Proof.
  unfold str_in, SUPPORTED_SBOM_SPECS; simpl.
  rewrite orb_false_r, orb_false_iff, !String.eqb_neq. tauto.
Qed.

(** C7: for a compliance name other than ["ntia"] and ["fsct3-min"] the
    factory raises a [ValueError] (no checker is returned), the
    unknown-standard error when the SBOM specification is a recognized
    one; for an SBOM specification other than ["spdx2"] and ["spdx3"] it
    raises the unsupported-specification error, a different one, whatever
    the compliance name. *)
Theorem factory_rejects_unknown_configuration
    (parse_file : string -> string -> option Document)
    (file : string) (validate : bool) (compliance sbom_spec : string) :
  (compliance <> "ntia" -> compliance <> "fsct3-min" ->
     (exists msg, SbomChecker parse_file file validate compliance sbom_spec
                  = Raise (ValueError msg))
     /\ (str_in sbom_spec SUPPORTED_SBOM_SPECS = true ->
         SbomChecker parse_file file validate compliance sbom_spec
         = Raise (ValueError msg_unknown_compliance)))
  /\ (sbom_spec <> "spdx2" -> sbom_spec <> "spdx3" ->
      SbomChecker parse_file file validate compliance sbom_spec
      = Raise (ValueError msg_unsupported_sbom_spec))
  /\ msg_unsupported_sbom_spec <> msg_unknown_compliance.
Proof.
  split; [| split].
  - intros Hntia Hfsct.
    apply String.eqb_neq in Hntia, Hfsct.
    unfold SbomChecker. rewrite Hntia, Hfsct.
    destruct (str_in sbom_spec SUPPORTED_SBOM_SPECS); simpl.
    + split; [eexists |]; reflexivity.
    + split; [eexists; reflexivity | discriminate].
  - intros H2 H3.
    unfold SbomChecker.
    now rewrite (proj2 (str_in_supported sbom_spec) (conj H2 H3)).
  - discriminate.
Qed.

Lemma factory_rejects_unknown_configuration_witness :
  SbomChecker failing_parser "sbom.spdx" true "unknown" "spdx2"
    = Raise (ValueError "Unknown compliance standard")
  /\ SbomChecker failing_parser "sbom.spdx" true "ntia" "unsupported"
    = Raise (ValueError "Unsupported SBOM specification").
Proof.
  split.
  - apply (proj1 (factory_rejects_unknown_configuration
                    failing_parser "sbom.spdx" true "unknown" "spdx2")).
    + discriminate.
    + discriminate.
    + reflexivity.
  - apply (proj1 (proj2 (factory_rejects_unknown_configuration
                           failing_parser "sbom.spdx" true "ntia" "unsupported"))).
    + discriminate.
    + discriminate.
Defined.

(** C8: whatever the checker state and the verbosity, the NTIA checker
    hands the renderer exactly 7 table elements, in the order name,
    version, identifier, supplier, author, timestamp, dependency
    relationships; the FSCT3 checker hands it exactly 9: the same 7
    followed by concluded license and copyright text. *)
Theorem table_elements_fixed (c : Checker) (verbose : bool) :
  rc_table_elements (NTIAChecker_print_table_output c verbose)
    = [El_name; El_version; El_identifier; El_supplier;
       El_author; El_timestamp; El_dependency_relationships]
  /\ List.length (rc_table_elements (NTIAChecker_print_table_output c verbose)) = 7
  /\ rc_table_elements (FSCT3Checker_print_table_output c verbose)
    = rc_table_elements (NTIAChecker_print_table_output c verbose)
      ++ [El_concluded_license; El_copyright_text]
  /\ List.length (rc_table_elements (FSCT3Checker_print_table_output c verbose)) = 9.
Proof. repeat split. Qed.

(** ** Worked instances *)

Lemma check_compliance_verdict_witness :
  check_compliance NTIA all_compliant_checker = true
  /\ check_compliance FSCT3 all_compliant_checker = true.
Proof.
  split.
  - apply (proj1 (check_compliance_verdict NTIA all_compliant_checker)).
    repeat constructor.
  - apply (proj1 (check_compliance_verdict FSCT3 all_compliant_checker)).
    repeat constructor.
Defined.

Lemma suppliers_missing_iff_absent_or_no_assertion_witness :
  Util.get_components_without_suppliers
    (Some (sample_document [complete_package; blank_package])) false = Ok [].
Proof.
  destruct (suppliers_missing_iff_absent_or_no_assertion
              (sample_document [complete_package; blank_package]) false)
    as (missing & Hresult & Hmissing & _).
  rewrite Hresult, Hmissing. reflexivity.
Defined.

(** ** Further properties of the field predicates of util.py *)

Section FilterFacts.

Context {A B : Type}.
Variable sel : A -> bool.
Variable f : A -> B.

Lemma map_filter_nil_iff (l : list A) :
  map f (filter sel l) = [] <-> Forall (fun x => sel x = false) l.
Proof.
  induction l as [| x l IH]; simpl.
  - split; [constructor | reflexivity].
  - destruct (sel x) eqn:Hx; simpl.
    + split; [discriminate |].
      intros H. inversion H; subst. congruence.
    + rewrite IH. split.
      * intros H. now constructor.
      * intros H. now inversion H.
Qed.

Lemma filter_permutation (l l' : list A) :
  Permutation l l' -> Permutation (filter sel l) (filter sel l').
Proof.
  induction 1 as [| x l l' _ IH | x y l | l l' l'' _ IH1 _ IH2]; simpl.
  - constructor.
  - destruct (sel x); [now constructor | exact IH].
  - destruct (sel x), (sel y); try reflexivity. apply perm_swap.
  - now transitivity (filter sel l').
Qed.

(** Entries are pairwise distinct as soon as the selected elements are
    told apart by a key that the entry determines. *)
Lemma NoDup_map_filter_by_key {K : Type} (key : A -> K) (l : list A) :
  (forall x y, f x = f y -> key x = key y) ->
  NoDup (map key l) -> NoDup (map f (filter sel l)).
Proof.
  intros Hkey. induction l as [| x l IH]; simpl; intros Hnodup.
  - constructor.
  - inversion Hnodup as [| k ks Hnotin Hrest]; subst.
    destruct (sel x); [| now apply IH].
    simpl. constructor; [| now apply IH].
    intros Hin. apply Hnotin.
    apply in_map_iff in Hin. destruct Hin as [y [Hy Hiny]].
    apply filter_In in Hiny. destruct Hiny as [Hiny _].
    apply in_map_iff. exists y. split; [| exact Hiny].
    symmetry. now apply Hkey.
Qed.

Lemma in_map_filter (l : list A) (x : A) :
  In x l -> sel x = true -> In (f x) (map f (filter sel l)).
Proof.
  intros Hin Hsel. apply in_map. apply filter_In. now split.
Qed.

End FilterFacts.

Lemma negb_truthy_false (v : value) : negb (truthy v) = false <-> truthy v = true.
Proof. destruct (truthy v); simpl; split; congruence. Qed.

Lemma negb_truthy_true (v : value) : negb (truthy v) = true <-> truthy v = false.
Proof. destruct (truthy v); simpl; split; congruence. Qed.

Lemma spec_lacks_supplier_false (p : Package) :
  spec_lacks_supplier p = false <-> supplier p <> VNone /\ supplier p <> VNoAssertion.
Proof.
  unfold spec_lacks_supplier.
  destruct (supplier p); split; intros H;
    try discriminate; try reflexivity;
    try (split; discriminate); destruct H as [H1 H2]; congruence.
Qed.

Lemma Forall_equiv {A : Type} (P Q : A -> Prop) (l : list A) :
  (forall x, P x <-> Q x) -> Forall P l <-> Forall Q l.
Proof.
  intros H. split; apply Forall_impl; intros x; apply H.
Qed.

(** X1: a field predicate returns the empty list exactly when no package
    fails its check: every name (version, SPDX ID) is truthy, respectively
    every supplier is neither [None] nor the sentinel.  The flag plays no
    part in this. *)
Theorem predicates_empty_iff_nothing_missing (d : Document) (return_tuples : bool) :
  (Util.get_components_without_names (Some d) = Ok []
     <-> Forall (fun p => truthy (name p) = true) (packages d))
  /\ (Util.get_components_without_versions (Some d) return_tuples = Ok []
     <-> Forall (fun p => truthy (version p) = true) (packages d))
  /\ (Util.get_components_without_suppliers (Some d) return_tuples = Ok []
     <-> Forall (fun p => supplier p <> VNone /\ supplier p <> VNoAssertion)
           (packages d))
  /\ (Util.get_components_without_identifiers (Some d) = Ok []
     <-> Forall (fun p => truthy (spdx_id p) = true) (packages d)).
Proof.
  assert (Hok : forall l : list value, Ok l = Ok [] <-> l = []).
  { intros l. split; [intros H; now injection H | intros ->; reflexivity]. }
  rewrite names_filter, versions_filter, suppliers_filter, identifiers_filter.
  rewrite !Hok, !map_filter_nil_iff.
  repeat split; intros H; revert H; apply Forall_impl; intros p;
    first [ apply negb_truthy_false | apply spec_lacks_supplier_false ].
Qed.

Lemma predicates_empty_iff_nothing_missing_witness :
  Util.get_components_without_suppliers
    (Some (sample_document [complete_package; blank_package])) true = Ok []
  /\ Util.get_components_without_versions
       (Some (sample_document [complete_package; blank_package])) true <> Ok [].
Proof.
  destruct (predicates_empty_iff_nothing_missing
              (sample_document [complete_package; blank_package]) true)
    as (_ & Hversions & Hsuppliers & _).
  split.
  - apply Hsuppliers. repeat constructor; discriminate.
  - intros H. apply Hversions in H.
    inversion H as [| ? ? _ Hrest]; subst.
    inversion Hrest as [| ? ? Hblank _]; subst.
    discriminate Hblank.
Defined.

(** X2: the predicates distribute over the concatenation of package
    lists: the result for the packages [l1 ++ l2] is the result for [l1]
    followed by the result for [l2]. *)
Theorem predicates_distribute_over_concatenation
    (d : Document) (l1 l2 : list Package) (return_tuples : bool) :
  (exists r1 r2,
     Util.get_components_without_names (Some (with_packages d l1)) = Ok r1
     /\ Util.get_components_without_names (Some (with_packages d l2)) = Ok r2
     /\ Util.get_components_without_names (Some (with_packages d (l1 ++ l2)))
        = Ok (r1 ++ r2))
  /\ (exists r1 r2,
     Util.get_components_without_versions (Some (with_packages d l1)) return_tuples
       = Ok r1
     /\ Util.get_components_without_versions (Some (with_packages d l2)) return_tuples
       = Ok r2
     /\ Util.get_components_without_versions
          (Some (with_packages d (l1 ++ l2))) return_tuples
        = Ok (r1 ++ r2))
  /\ (exists r1 r2,
     Util.get_components_without_suppliers (Some (with_packages d l1)) return_tuples
       = Ok r1
     /\ Util.get_components_without_suppliers (Some (with_packages d l2)) return_tuples
       = Ok r2
     /\ Util.get_components_without_suppliers
          (Some (with_packages d (l1 ++ l2))) return_tuples
        = Ok (r1 ++ r2))
  /\ (exists r1 r2,
     Util.get_components_without_identifiers (Some (with_packages d l1)) = Ok r1
     /\ Util.get_components_without_identifiers (Some (with_packages d l2)) = Ok r2
     /\ Util.get_components_without_identifiers (Some (with_packages d (l1 ++ l2)))
        = Ok (r1 ++ r2)).
Proof.
  repeat split; do 2 eexists;
    rewrite ?names_filter, ?versions_filter, ?suppliers_filter, ?identifiers_filter;
    simpl; (split; [reflexivity |]); (split; [reflexivity |]);
    now rewrite filter_app, map_app.
Qed.

(** X3: when the packages of a document have pairwise distinct SPDX IDs,
    the result of [get_components_without_names] and the tuple results of
    [get_components_without_versions] and
    [get_components_without_suppliers] have no repeated entry, even when
    several packages share a name. *)
Theorem distinct_ids_give_distinct_entries (d : Document) :
  NoDup (map spdx_id (packages d)) ->
  (exists l, Util.get_components_without_names (Some d) = Ok l /\ NoDup l)
  /\ (exists l, Util.get_components_without_versions (Some d) true = Ok l /\ NoDup l)
  /\ (exists l, Util.get_components_without_suppliers (Some d) true = Ok l /\ NoDup l).
Proof.
  intros Hids.
  repeat split; eexists;
    (split; [first [apply names_filter | apply versions_filter | apply suppliers_filter] |]);
    apply (NoDup_map_filter_by_key _ _ spdx_id); auto;
    intros x y H; simpl in H; congruence.
Qed.

Lemma distinct_ids_give_distinct_entries_witness :
  Util.get_components_without_suppliers
    (Some (sample_document
             [unlicensed_package;
              mkPackage (VStr "glibc") (VStr "SPDXRef-A") VNone VNone VNone VNone;
              mkPackage (VStr "glibc") (VStr "SPDXRef-B") VNone VNoAssertion VNone VNone]))
    false
  = Ok [VStr "glibc"; VStr "glibc"]
  /\ exists l,
       Util.get_components_without_suppliers
         (Some (sample_document
                  [unlicensed_package;
                   mkPackage (VStr "glibc") (VStr "SPDXRef-A") VNone VNone VNone VNone;
                   mkPackage (VStr "glibc") (VStr "SPDXRef-B") VNone VNoAssertion VNone VNone]))
         true = Ok l
       /\ NoDup l.
Proof.
  split; [reflexivity |].
  apply distinct_ids_give_distinct_entries.
  simpl. repeat constructor; simpl; intuition discriminate.
Defined.

(** X4: reordering the packages of a document reorders the results and
    changes nothing else: for two documents whose package lists are
    permutations of each other, each predicate's results are permutations
    of each other. *)
Theorem predicates_respect_permutations (d d' : Document) (return_tuples : bool) :
  Permutation (packages d) (packages d') ->
  (exists l l', Util.get_components_without_names (Some d) = Ok l
     /\ Util.get_components_without_names (Some d') = Ok l'
     /\ Permutation l l')
  /\ (exists l l', Util.get_components_without_versions (Some d) return_tuples = Ok l
     /\ Util.get_components_without_versions (Some d') return_tuples = Ok l'
     /\ Permutation l l')
  /\ (exists l l', Util.get_components_without_suppliers (Some d) return_tuples = Ok l
     /\ Util.get_components_without_suppliers (Some d') return_tuples = Ok l'
     /\ Permutation l l')
  /\ (exists l l', Util.get_components_without_identifiers (Some d) = Ok l
     /\ Util.get_components_without_identifiers (Some d') = Ok l'
     /\ Permutation l l').
Proof.
  intros Hperm.
  repeat split; do 2 eexists;
    (split; [first [ apply names_filter | apply versions_filter
                   | apply suppliers_filter | apply identifiers_filter ] |]);
    (split; [first [ apply names_filter | apply versions_filter
                   | apply suppliers_filter | apply identifiers_filter ] |]);
    apply Permutation_map, filter_permutation, Hperm.
Qed.

Lemma predicates_respect_permutations_witness :
  exists l l',
    Util.get_components_without_versions
      (Some (sample_document [blank_package; nameless_package])) false = Ok l
    /\ Util.get_components_without_versions
         (Some (sample_document [nameless_package; blank_package])) false = Ok l'
    /\ Permutation l l'.
Proof.
  apply (predicates_respect_permutations
           (sample_document [blank_package; nameless_package])
           (sample_document [nameless_package; blank_package]) false).
  simpl. apply perm_swap.
Defined.

(** X5: the predicates agree with one another on nameless packages: in
    the tuple result of [get_components_without_versions] or of
    [get_components_without_suppliers], a pair whose name component is
    falsy carries an SPDX ID that [get_components_without_names] reports
    for the same document. *)
Theorem nameless_tuples_are_reported_without_names (d : Document) :
  exists ids version_tuples supplier_tuples,
    Util.get_components_without_names (Some d) = Ok ids
    /\ Util.get_components_without_versions (Some d) true = Ok version_tuples
    /\ Util.get_components_without_suppliers (Some d) true = Ok supplier_tuples
    /\ forall n i,
         In (VTuple n i) version_tuples \/ In (VTuple n i) supplier_tuples ->
         truthy n = false ->
         In i ids.
Proof.
  do 3 eexists.
  split; [apply names_filter |].
  split; [apply versions_filter |].
  split; [apply suppliers_filter |].
  intros n i Hin Hfalsy.
  assert (Hp : exists p, In p (packages d) /\ name p = n /\ spdx_id p = i).
  { destruct Hin as [Hin | Hin];
      apply in_map_iff in Hin; destruct Hin as [p [He Hp]];
      apply filter_In in Hp; destruct Hp as [Hp _];
      simpl in He; injection He as Hn Hi; eauto. }
  destruct Hp as [p [Hp [Hn Hi]]]. subst n i.
  apply in_map_filter; [exact Hp |].
  unfold lacks_name. now rewrite Hfalsy.
Qed.

Lemma nameless_tuples_are_reported_without_names_witness :
  exists ids, Util.get_components_without_names
                (Some (sample_document
                         [mkPackage VNone (VStr "SPDXRef-A") VNone VNone VNone VNone]))
              = Ok ids
              /\ In (VStr "SPDXRef-A") ids.
Proof.
  destruct (nameless_tuples_are_reported_without_names
              (sample_document
                 [mkPackage VNone (VStr "SPDXRef-A") VNone VNone VNone VNone]))
    as (ids & vt & st & Hids & Hvt & _ & H).
  exists ids. split; [exact Hids |].
  apply (H VNone (VStr "SPDXRef-A")); [| reflexivity].
  left. injection Hvt as <-. simpl. now left.
Defined.

(** X6: the two flagless predicates report a package by the attribute it
    still has, so their lists hold a falsy entry exactly when some package
    lacks both its name and its SPDX ID: [get_components_without_names]
    then reports the falsy SPDX ID and
    [get_components_without_identifiers] the falsy name. *)
Theorem falsy_entries_iff_package_lacks_name_and_identifier (d : Document) :
  exists ids names,
    Util.get_components_without_names (Some d) = Ok ids
    /\ Util.get_components_without_identifiers (Some d) = Ok names
    /\ (Exists (fun e => truthy e = false) ids
        <-> Exists (fun p => truthy (name p) = false /\ truthy (spdx_id p) = false)
              (packages d))
    /\ (Exists (fun e => truthy e = false) names
        <-> Exists (fun p => truthy (name p) = false /\ truthy (spdx_id p) = false)
              (packages d)).
Proof.
  do 2 eexists.
  split; [apply names_filter |].
  split; [apply identifiers_filter |].
  split; rewrite !Exists_exists; split.
  - intros [e [Hin He]].
    apply in_map_iff in Hin. destruct Hin as [p [<- Hp]].
    apply filter_In in Hp. destruct Hp as [Hp Hsel].
    exists p. repeat split; auto. now apply negb_truthy_true.
  - intros [p [Hp [Hn Hi]]].
    exists (spdx_id p). split; [| exact Hi].
    apply in_map_filter; [exact Hp | now apply negb_truthy_true].
  - intros [e [Hin He]].
    apply in_map_iff in Hin. destruct Hin as [p [<- Hp]].
    apply filter_In in Hp. destruct Hp as [Hp Hsel].
    exists p. repeat split; auto. now apply negb_truthy_true.
  - intros [p [Hp [Hn Hi]]].
    exists (name p). split; [| exact Hn].
    apply in_map_filter; [exact Hp | now apply negb_truthy_true].
Qed.

Lemma falsy_entries_iff_package_lacks_name_and_identifier_witness :
  exists names,
    Util.get_components_without_identifiers
      (Some (sample_document [mkPackage (VStr "") VNone VNone VNone VNone VNone]))
    = Ok names
    /\ Exists (fun e => truthy e = false) names.
Proof.
  destruct (falsy_entries_iff_package_lacks_name_and_identifier
              (sample_document [mkPackage (VStr "") VNone VNone VNone VNone VNone]))
    as (ids & names & _ & Hnames & _ & H).
  exists names. split; [exact Hnames |].
  apply H. constructor. split; reflexivity.
Defined.

(** X7: no failing package is left out: a package of the document whose
    name (version, supplier, SPDX ID) fails the check has its entry in the
    result of the corresponding predicate. *)
Theorem failing_packages_are_reported
    (d : Document) (p : Package) (return_tuples : bool) :
  In p (packages d) ->
  (truthy (name p) = false ->
     exists l, Util.get_components_without_names (Some d) = Ok l
               /\ In (spdx_id p) l)
  /\ (truthy (version p) = false ->
     exists l, Util.get_components_without_versions (Some d) return_tuples = Ok l
               /\ In (if return_tuples then VTuple (name p) (spdx_id p) else name p) l)
  /\ (supplier p = VNone \/ supplier p = VNoAssertion ->
     exists l, Util.get_components_without_suppliers (Some d) return_tuples = Ok l
               /\ In (if return_tuples then VTuple (name p) (spdx_id p) else name p) l)
  /\ (truthy (spdx_id p) = false ->
     exists l, Util.get_components_without_identifiers (Some d) = Ok l
               /\ In (name p) l).
Proof.
  intros Hp.
  repeat split; intros Hfail; eexists;
    (split; [first [ apply names_filter | apply versions_filter
                   | apply suppliers_filter | apply identifiers_filter ] |]).
  - apply in_map_filter; [exact Hp | now apply negb_truthy_true].
  - apply (in_map_filter lacks_version (entry return_tuples));
      [exact Hp | now apply negb_truthy_true].
  - apply (in_map_filter spec_lacks_supplier (entry return_tuples));
      [exact Hp | now apply spec_lacks_supplier_iff].
  - apply in_map_filter; [exact Hp | now apply negb_truthy_true].
Qed.

Lemma failing_packages_are_reported_witness :
  exists l,
    Util.get_components_without_versions
      (Some (sample_document [complete_package; blank_package])) true = Ok l
    /\ In (VTuple (VStr "saxon") (VStr "SPDXRef-Saxon")) l.
Proof.
  destruct (failing_packages_are_reported
              (sample_document [complete_package; blank_package]) blank_package true)
    as (_ & Hversions & _).
  - simpl. right. now left.
  - apply Hversions. reflexivity.
Defined.

(** X8: a package that passes a check is invisible to the corresponding
    predicate: inserting it anywhere among the packages leaves the result
    of [get_components_without_names], [get_components_without_versions]
    or [get_components_without_identifiers] unchanged. *)
Theorem passing_package_leaves_result_unchanged
    (d : Document) (before after : list Package) (p : Package) (return_tuples : bool) :
  (truthy (name p) = true ->
     Util.get_components_without_names (Some (with_packages d (before ++ p :: after)))
     = Util.get_components_without_names (Some (with_packages d (before ++ after))))
  /\ (truthy (version p) = true ->
     Util.get_components_without_versions
       (Some (with_packages d (before ++ p :: after))) return_tuples
     = Util.get_components_without_versions
         (Some (with_packages d (before ++ after))) return_tuples)
  /\ (truthy (spdx_id p) = true ->
     Util.get_components_without_identifiers
       (Some (with_packages d (before ++ p :: after)))
     = Util.get_components_without_identifiers
         (Some (with_packages d (before ++ after)))).
Proof.
  repeat split; intros Hpass;
    rewrite ?names_filter, ?versions_filter, ?identifiers_filter; simpl;
    rewrite filter_skip; try reflexivity;
    now apply negb_truthy_false.
Qed.

Lemma passing_package_leaves_result_unchanged_witness :
  Util.get_components_without_versions
    (Some (with_packages (sample_document [])
             ([blank_package] ++ complete_package :: [nameless_package]))) false
  = Ok [VStr "saxon"].
Proof.
  destruct (passing_package_leaves_result_unchanged
              (sample_document []) [blank_package] [nameless_package]
              complete_package false)
    as (_ & Hversions & _).
  rewrite Hversions; reflexivity.
Defined.

Lemma filter_length_full {A : Type} (sel : A -> bool) (l : list A) :
  List.length (filter sel l) = List.length l <-> Forall (fun x => sel x = true) l.
Proof.
  induction l as [| x l IH]; simpl.
  - split; [constructor | reflexivity].
  - pose proof (filter_length_le sel l) as Hle.
    destruct (sel x) eqn:Hx; simpl.
    + split.
      * intros H. constructor; [exact Hx | apply IH; lia].
      * intros H. inversion H; subst. f_equal. now apply IH.
    + split; [lia |].
      intros H. inversion H; subst. congruence.
Qed.

(** X9: a predicate never returns more entries than the document has
    packages, and it returns as many exactly when every package fails its
    check (shown for versions and suppliers, with either flag). *)
Theorem result_length_bounded_by_packages (d : Document) (return_tuples : bool) :
  exists names versions suppliers identifiers,
    Util.get_components_without_names (Some d) = Ok names
    /\ Util.get_components_without_versions (Some d) return_tuples = Ok versions
    /\ Util.get_components_without_suppliers (Some d) return_tuples = Ok suppliers
    /\ Util.get_components_without_identifiers (Some d) = Ok identifiers
    /\ List.length names <= List.length (packages d)
    /\ List.length versions <= List.length (packages d)
    /\ List.length suppliers <= List.length (packages d)
    /\ List.length identifiers <= List.length (packages d)
    /\ (List.length versions = List.length (packages d)
        <-> Forall (fun p => truthy (version p) = false) (packages d))
    /\ (List.length suppliers = List.length (packages d)
        <-> Forall (fun p => supplier p = VNone \/ supplier p = VNoAssertion)
              (packages d)).
Proof.
  do 4 eexists.
  split; [apply names_filter |].
  split; [apply versions_filter |].
  split; [apply suppliers_filter |].
  split; [apply identifiers_filter |].
  rewrite !length_map, !filter_length_full.
  do 4 (split; [apply filter_length_le |]).
  split; apply Forall_equiv; intros p.
  - apply negb_truthy_true.
  - apply spec_lacks_supplier_iff.
Qed.

Lemma result_length_bounded_by_packages_witness :
  exists versions,
    Util.get_components_without_versions
      (Some (sample_document [blank_package; blank_package])) true = Ok versions
    /\ List.length versions = 2.
Proof.
  destruct (result_length_bounded_by_packages
              (sample_document [blank_package; blank_package]) true)
    as (n & v & s & i & _ & Hv & _ & _ & _ & _ & _ & _ & Hfull & _).
  exists v. split; [exact Hv |].
  apply Hfull. repeat constructor.
Defined.
